(** * Arithmetic as deferred computations

    A shallow embedding of the two TypeScript programs of the repository:

    - [ExampleEffect] follows [src/1-example.effect.ts], where [add],
      [subtract], [multiply] and [divide] build values of the Effect
      library and the script runs them;
    - [Plain] follows the plain version of the same functions, where
      [divide] throws.

    A JavaScript [number] is an IEEE 754 binary64 value, which is what
    Rocq's primitive [float] is, so [+], [-], [*], [/] and [===] on numbers
    are the primitive float operations ([===] is IEEE equality: it holds
    between [0] and [-0] and never holds for [NaN]). *)

From Stdlib Require Import Floats.
From stdpp Require Import base strings list gmap.

Abbreviation number := float (only parsing).

(** ** The host language fragment *)

Module Js.

(** A value stored in a property of an object. *)
Inductive value : Type :=
| VNum (x : number)
| VStr (s : string).

(** An object as seen by property reads: [o !! "p"] is [None] where
    JavaScript reads [undefined]. *)
Abbreviation object := (gmap string value) (only parsing).

(** One argument of a [console.log] call. A template literal with number
    substitutions keeps its chunks: the text of a number is not computed. *)
Inductive logArg : Type :=
| LStr (s : string)
| LNum (x : number)
| LTemplate (chunks : list (string + number))
| LObj (o : object).

(** One [console.log] call. *)
Definition Line : Type := list logArg.

(** How the evaluation of a piece of code ends: with a value, or with a
    thrown value of type [T]. *)
Inductive Completion (T X : Type) : Type :=
| Normal (x : X)
| Throw (t : T).
Arguments Normal {T X} x.
Arguments Throw {T X} t.

(** Code that may throw a [T] and writes lines to the console. *)
Definition Js (T X : Type) : Type := Completion T X * list Line.

Definition ret {T X} (x : X) : Js T X := (Normal x, []).

Definition throw {T X} (t : T) : Js T X := (Throw t, []).

Definition bind {T X Y} (m : Js T X) (k : X -> Js T Y) : Js T Y :=
  match m with
  | (Normal x, out) => let (c, out') := k x in (c, out ++ out')
  | (Throw t, out) => (Throw t, out)
  end.

Definition console_log {T} (args : Line) : Js T unit := (Normal tt, [args]).

(** [try { body } catch (t) { handler t }] *)
Definition try_catch {T T' X} (body : Js T X) (handler : T -> Js T' X)
  : Js T' X :=
  match body with
  | (Normal x, out) => (Normal x, out)
  | (Throw t, out) => let (c, out') := handler t in (c, out ++ out')
  end.

(** Code that cannot throw always has a value. *)
Definition settled {X} (m : Js Empty_set X) : X * list Line :=
  match m with
  | (Normal x, out) => (x, out)
  | (Throw t, _) => match t with end
  end.

(** Code that cannot throw, used where code may throw. *)
Definition lift {T X} (m : Js Empty_set X) : Js T X :=
  let (x, out) := settled m in (Normal x, out).

(** The value thrown by [new Error(message)]: [name] is read from the
    prototype of [Error]. *)
Definition new_Error (message : string) : object :=
  {[ "name" := VStr "Error"; "message" := VStr message ]}.

End Js.

Export Js.

Declare Scope js_scope.
Delimit Scope js_scope with js.
Notation "x <- m ;; k" := (bind m (fun x => k))
(at level 100, m at next level, right associativity) : js_scope.
Notation "m ;; k" := (bind m (fun _ => k))
(at level 100, right associativity) : js_scope.
Open Scope js_scope.

(** [self.pipe(f)] *)
Definition pipe {X Y} (self : X) (f : X -> Y) : Y := f self.

(** ** The Effect library *)

Module Effect.

(** The outcome of one execution. *)
Inductive Exit (A E : Type) : Type :=
| Success (a : A)
| Failure (e : E).
Arguments Success {A E} a.
Arguments Failure {A E} e.

(** Modelled from the spec: the type [Effect<A, E, never>] of the library
    "effect", which the repository imports and does not contain. The spec
    has it as a thunk that, when invoked, produces a success value or a
    failure value, and does nothing before. Invoking the thunk also gives
    the lines its functions wrote to the console. *)
Definition Effect (A E : Type) : Type := unit -> Exit A E * list Line.

(** Modelled from the spec: [Effect.succeed] of the library, which always
    yields [value] on execution. *)
Definition succeed {A E} (value : A) : Effect A E :=
  fun _ => (Success value, []).

(** Modelled from the spec: [Effect.fail] of the library, which always
    yields [error] as a failure on execution. *)
Definition fail {A E} (error : E) : Effect A E :=
  fun _ => (Failure error, []).

(** Modelled from the spec: [Effect.sync] of the library; execution
    invokes [thunk], which is assumed not to throw, and its value is the
    success. *)
Definition sync {A E} (thunk : unit -> Js Empty_set A) : Effect A E :=
  fun _ => let (a, out) := settled (thunk tt) in (Success a, out).

(** Modelled from the spec: [Effect.catchAll] of the library. On execution,
    when [self] fails, [f] is called with the failure to obtain a
    replacement that is executed instead; a success passes through. *)
Definition catchAll {A E E2} (f : E -> Js Empty_set (Effect A E2))
    (self : Effect A E) : Effect A E2 :=
  fun _ =>
    match self tt with
    | (Success a, out) => (Success a, out)
    | (Failure e, out) =>
        let (that, out1) := settled (f e) in
        let (exit, out2) := that tt in
        (exit, out ++ out1 ++ out2)
    end.

(** A failure type with a discriminator, the [_tag] property. *)
Class Tagged (E : Type) : Type := tag : E -> string.

(** Modelled from the spec: [Effect.catchTag] of the library, as
    [catchAll] but [f] is called only when the discriminator of the
    failure is [k]; another failure stays the failure of the result. *)
Definition catchTag {A E} `{Tagged E} (k : string)
    (f : E -> Js Empty_set (Effect A E)) (self : Effect A E) : Effect A E :=
  fun _ =>
    match self tt with
    | (Success a, out) => (Success a, out)
    | (Failure e, out) =>
        if String.eqb (tag e) k then
          let (that, out1) := settled (f e) in
          let (exit, out2) := that tt in
          (exit, out ++ out1 ++ out2)
        else (Failure e, out)
    end.

(** Modelled from the spec: [Effect.runSync] of the library. It executes
    the computation and returns the success value; a failure is thrown,
    carrying the failure value. *)
Definition runSync {A E} (effect : Effect A E) : Js E A :=
  match effect tt with
  | (Success a, out) => (Normal a, out)
  | (Failure e, out) => (Throw e, out)
  end.

(** The state of a promise that has been settled. *)
Inductive Promise (A E : Type) : Type :=
| Fulfilled (a : A)
| Rejected (e : E).
Arguments Fulfilled {A E} a.
Arguments Rejected {A E} e.

(** Modelled from the spec: [Effect.runPromise] of the library. It executes
    the computation once and returns a promise that is fulfilled with the
    success value or rejected with the failure value; the call itself
    does not throw. *)
Definition runPromise {T A E} (effect : Effect A E) : Js T (Promise A E) :=
  match effect tt with
  | (Success a, out) => (Normal (Fulfilled a), out)
  | (Failure e, out) => (Normal (Rejected e), out)
  end.

End Effect.


(** ** The script [1-example.effect.ts]

    A function of the script is code of the host language that returns an
    [Effect] value; a constant of the script is the evaluation of its
    initialiser. The [console.log] statements that print the constants at
    top level are left out, the ones inside the handlers are kept. *)

Module ExampleEffect.

Definition add {T} (a b : number)
  : Js T (Effect.Effect number Empty_set) :=
  ret (Effect.succeed (a + b)%float).

Definition sum : Js Empty_set number :=
  effect <- add 1 2 ;; Effect.runSync effect.

Definition subtract {T} (a b : number)
  : Js T (Effect.Effect number Empty_set) :=
  ret (Effect.succeed (a - b)%float).

Definition difference : Js Empty_set number :=
  effect <- subtract 5 2 ;; Effect.runSync effect.

Definition multiply {T} (a b : number)
  : Js T (Effect.Effect number Empty_set) :=
  ret (Effect.succeed (a * b)%float).

Definition product : Js Empty_set number :=
  effect <- multiply 3 4 ;; Effect.runSync effect.

Definition divide {T} (a b : number)
  : Js T (Effect.Effect number string) :=
  if PrimFloat.eqb b 0 then ret (Effect.fail "Cannot divide by zero")
  else ret (Effect.succeed (a / b)%float).

Definition quotient : Js string number :=
  effect <- divide 6 3 ;; Effect.runSync effect.

(** [Effect.runPromise(divide(10, 2))]; the callbacks attached to the promise
    are left out. *)
Definition asyncQuotient {T} : Js T (Effect.Promise number string) :=
  effect <- divide 10 2 ;; Effect.runPromise effect.

(** [class ErrorDivideByZero]: the two initialised properties and the two
    parameter properties of the constructor. *)
Record ErrorDivideByZero : Type := {
  _tag : string;
  message : string;
  dividend : number;
  divisor : number
}.

(** [new ErrorDivideByZero(dividend, divisor)] *)
Definition new_ErrorDivideByZero (dividend divisor : number)
  : ErrorDivideByZero :=
  {| _tag := "ErrorDivideByZero";
     message := "Cannot divide by zero";
     dividend := dividend;
     divisor := divisor |}.

#[global] Instance ErrorDivideByZero_Tagged : Effect.Tagged ErrorDivideByZero :=
  _tag.

Definition divideWithCustomError {T} (a b : number)
  : Js T (Effect.Effect number ErrorDivideByZero) :=
  if PrimFloat.eqb b 0 then ret (Effect.fail (new_ErrorDivideByZero a b))
  else ret (Effect.succeed (a / b)%float).

Definition safeDivide {T} : Js T (Effect.Effect number Empty_set) :=
  self <- divideWithCustomError 6 0 ;;
  ret (pipe self (Effect.catchAll (fun error =>
    console_log
      [LStr ("Caught error: " +:+ _tag error +:+ " - " +:+ message error)] ;;
    console_log
      [LTemplate [inl "Attempted: "; inr (dividend error);
                  inl " / "; inr (divisor error)]] ;;
    ret (Effect.succeed 0%float)))).

Definition safeResult : Js Empty_set number :=
  effect <- safeDivide ;; Effect.runSync effect.

Definition handleSpecificError {T}
  : Js T (Effect.Effect number ErrorDivideByZero) :=
  self <- divideWithCustomError 10 0 ;;
  ret (pipe self (Effect.catchTag "ErrorDivideByZero" (fun error =>
    console_log [LStr ("Specific handler for: " +:+ _tag error)] ;;
    ret (Effect.succeed (-1)%float)))).

Definition specificResult : Js ErrorDivideByZero number :=
  effect <- handleSpecificError ;; Effect.runSync effect.

Definition validDivision {T}
  : Js T (Effect.Effect number ErrorDivideByZero) :=
  divideWithCustomError 12 4.

Definition validResult : Js ErrorDivideByZero number :=
  effect <- validDivision ;; Effect.runSync effect.

End ExampleEffect.

(** ** The plain script, whose functions throw *)

Module Plain.

Definition add {T} (a b : number) : Js T number := ret (a + b)%float.

Definition sum : Js Empty_set number := add 1 2.

Definition subtract {T} (a b : number) : Js T number := ret (a - b)%float.

Definition difference : Js Empty_set number := subtract 5 2.

Definition multiply {T} (a b : number) : Js T number := ret (a * b)%float.

Definition product : Js Empty_set number := multiply 3 4.

Definition divide (a b : number) : Js object number :=
  if PrimFloat.eqb b 0 then throw (new_Error "Cannot divide by zero")
  else ret (a / b)%float.

Definition quotient : Js object number := divide 6 3.

(** [new ErrorDivideByZero()] of [class ErrorDivideByZero extends Error]:
    the constructor takes no argument, calls [super] with the message and
    sets [name]. *)
Definition new_ErrorDivideByZero : object :=
  <["name" := VStr "ErrorDivideByZero"]> (new_Error "Cannot divide by zero").

Definition divideWithCustomError (a b : number) : Js object number :=
  if PrimFloat.eqb b 0 then throw new_ErrorDivideByZero
  else ret (a / b)%float.

(** The [try] statement that ends the script. *)
Definition tryQuotientWithCustomError : Js Empty_set unit :=
  try_catch
    (quotientWithCustomError <- divideWithCustomError 6 0 ;;
     console_log [LNum quotientWithCustomError])
    (fun error => console_log [LObj error]).

End Plain.

(** Runs [m] inside a [try] statement and returns how it completed; used to
    observe two executions one after the other. *)
Definition attempt {T T' X} (m : Js T X) : Js T' (Completion T X) :=
  try_catch (x <- m ;; ret (Normal x)) (fun t => ret (Throw t)).

(** [m] returns normally and prints nothing. *)
Definition silent {T X} (m : Js T X) : Prop := exists x, m = ret x.

(** Two runs end the same way and print the same lines. *)
Definition same_behaviour {T1 T2 X} (m1 : Js T1 X) (m2 : Js T2 X) : Prop :=
  match m1, m2 with
  | (Normal x1, out1), (Normal x2, out2) => x1 = x2 /\ out1 = out2
  | (Throw _, out1), (Throw _, out2) => out1 = out2
  | _, _ => False
  end.

(** The function that [safeDivide] passes to [Effect.catchAll]. *)
Definition safeDivide_handler (error : ExampleEffect.ErrorDivideByZero)
  : Js Empty_set (Effect.Effect number Empty_set) :=
  console_log
    [LStr ("Caught error: " +:+ ExampleEffect._tag error +:+ " - "
           +:+ ExampleEffect.message error)] ;;
  console_log
    [LTemplate [inl "Attempted: "; inr (ExampleEffect.dividend error);
                inl " / "; inr (ExampleEffect.divisor error)]] ;;
  ret (Effect.succeed 0%float).

(** The function that [handleSpecificError] passes to [Effect.catchTag]. *)
Definition handleSpecificError_handler
    (error : ExampleEffect.ErrorDivideByZero)
  : Js Empty_set (Effect.Effect number ExampleEffect.ErrorDivideByZero) :=
  console_log [LStr ("Specific handler for: " +:+ ExampleEffect._tag error)] ;;
  ret (Effect.succeed (-1)%float).

(** A function of the script with effects, run synchronously, against the
    plain function: the same value and the same lines, or a failure whose
    value [related] to the error that the plain function throws. *)
Definition ported {E X} (related : object -> E -> Prop)
    (plain : Js object X) (run : Js E X) : Prop :=
  match plain, run with
  | (Normal x1, out1), (Normal x2, out2) => x1 = x2 /\ out1 = out2
  | (Throw error, out1), (Throw e, out2) => related error e /\ out1 = out2
  | _, _ => False
  end.

(** ** The order of evaluation

    JavaScript evaluates the arguments of a call before the call. [Steps]
    follows the functions of the script once more, and records each operator
    and each [new] expression at the moment it is evaluated, so that what a
    call of a function evaluates can be told from what an execution of the
    computation evaluates. The calls of [Effect.succeed] and [Effect.fail]
    are the construction itself and are not recorded. *)

Module Steps.

(** An operator or a [new] expression of the script, with its operands. *)
Inductive operation : Type :=
| Plus (a b : number)
| Minus (a b : number)
| Times (a b : number)
| Over (a b : number)
| StrictEquals (a b : number)
| New_ErrorDivideByZero (dividend divisor : number).

(** A value with the operations evaluated to obtain it, in order. *)
Definition Evaluated (X : Type) : Type := X * list operation.

Definition result {X} (x : X) : Evaluated X := (x, []).

Definition step {X Y} (m : Evaluated X) (k : X -> Evaluated Y) : Evaluated Y :=
  let (x, ops) := m in let (y, ops') := k x in (y, ops ++ ops').

Definition plus (a b : number) : Evaluated number :=
  ((a + b)%float, [Plus a b]).

Definition minus (a b : number) : Evaluated number :=
  ((a - b)%float, [Minus a b]).

Definition times (a b : number) : Evaluated number :=
  ((a * b)%float, [Times a b]).

Definition over (a b : number) : Evaluated number :=
  ((a / b)%float, [Over a b]).

Definition strict_equals (a b : number) : Evaluated bool :=
  (PrimFloat.eqb a b, [StrictEquals a b]).

Definition new_ErrorDivideByZero (dividend divisor : number)
  : Evaluated ExampleEffect.ErrorDivideByZero :=
  (ExampleEffect.new_ErrorDivideByZero dividend divisor,
   [New_ErrorDivideByZero dividend divisor]).

(** Modelled from the spec: the type [Effect<A, E, never>] of the library,
    as [Effect.Effect], where invoking the thunk also gives the operations
    evaluated by the execution. *)
Definition Effect (A E : Type) : Type :=
  unit -> Evaluated (Effect.Exit A E * list Line).

(** Modelled from the spec: [Effect.succeed] of the library; the value is
    given, and the execution yields it and evaluates nothing. *)
Definition succeed {A E} (value : A) : Effect A E :=
  fun _ => result (Effect.Success value, []).

(** Modelled from the spec: [Effect.fail] of the library; the error is
    given, and the execution yields it and evaluates nothing. *)
Definition fail {A E} (error : E) : Effect A E :=
  fun _ => result (Effect.Failure error, []).

(** Modelled from the spec: [Effect.sync] of the library; the execution
    invokes [thunk], so what [thunk] evaluates is evaluated then. *)
Definition sync {A E} (thunk : unit -> Evaluated A) : Effect A E :=
  fun _ => step (thunk tt) (fun a => result (Effect.Success a, [])).

(** Modelled from the spec: [Effect.runSync] of the library, as
    [Effect.runSync]; it evaluates what the thunk evaluates. *)
Definition runSync {A E} (effect : Effect A E) : Evaluated (Js E A) :=
  step (effect tt) (fun outcome =>
    result (match outcome with
          | (Effect.Success a, out) => (Normal a, out)
          | (Effect.Failure e, out) => (Throw e, out)
          end)).

(** The computation without the record of its operations. *)
Definition erase {A E} (effect : Effect A E) : Effect.Effect A E :=
  fun u => fst (effect u).

Definition add (a b : number) : Evaluated (Effect number Empty_set) :=
  step (plus a b) (fun value => result (succeed value)).

Definition subtract (a b : number) : Evaluated (Effect number Empty_set) :=
  step (minus a b) (fun value => result (succeed value)).

Definition multiply (a b : number) : Evaluated (Effect number Empty_set) :=
  step (times a b) (fun value => result (succeed value)).

Definition divide (a b : number) : Evaluated (Effect number string) :=
  step (strict_equals b 0) (fun zero =>
    if zero then result (fail "Cannot divide by zero")
    else step (over a b) (fun value => result (succeed value))).

Definition divideWithCustomError (a b : number)
  : Evaluated (Effect number ExampleEffect.ErrorDivideByZero) :=
  step (strict_equals b 0) (fun zero =>
    if zero then
      step (new_ErrorDivideByZero a b) (fun error => result (fail error))
    else step (over a b) (fun value => result (succeed value))).

End Steps.


(** ** Captured variables

    The functions inside a computation may capture variables of the script
    that can be assigned. [Stateful] has the executions of [Js] and
    [Effect] with the state [S] of those variables passed in and out. *)

Module Stateful.

(** Code that may throw a [T], writes lines to the console, and reads and
    assigns the captured variables. *)
Definition Js (S T X : Type) : Type := S -> Completion T X * list Line * S.

Definition ret {S T X} (x : X) : Js S T X := fun s => (Normal x, [], s).

Definition bind {S T X Y} (m : Js S T X) (k : X -> Js S T Y) : Js S T Y :=
  fun s =>
    match m s with
    | (Normal x, out, s1) =>
        let '(c, out', s2) := k x s1 in (c, out ++ out', s2)
    | (Throw t, out, s1) => (Throw t, out, s1)
    end.

(** [try { body } catch (t) { handler t }] *)
Definition try_catch {S T T' X} (body : Js S T X) (handler : T -> Js S T' X)
  : Js S T' X :=
  fun s =>
    match body s with
    | (Normal x, out, s1) => (Normal x, out, s1)
    | (Throw t, out, s1) =>
        let '(c, out', s2) := handler t s1 in (c, out ++ out', s2)
    end.

(** Runs [m] inside a [try] statement and returns how it completed. *)
Definition attempt {S T T' X} (m : Js S T X) : Js S T' (Completion T X) :=
  try_catch (bind m (fun x => ret (Normal x))) (fun t => ret (Throw t)).

(** Modelled from the spec: the type [Effect<A, E, never>] of the library,
    a thunk that, when invoked, produces a success value or a failure value
    and is stateless apart from what it closes over: invoking it reads and
    may assign the captured variables. *)
Definition Effect (S A E : Type) : Type :=
  S -> Effect.Exit A E * list Line * S.

(** Modelled from the spec: [Effect.sync] of the library; the execution
    invokes [thunk]. *)
Definition sync {S A E} (thunk : S -> A * list Line * S) : Effect S A E :=
  fun s => let '(a, out, s1) := thunk s in (Effect.Success a, out, s1).

(** Modelled from the spec: [Effect.runSync] of the library. It executes the
    computation and returns the success value; a failure is thrown, carrying
    the failure value. *)
Definition runSync {S A E} (effect : Effect S A E) : Js S E A :=
  fun s =>
    match effect s with
    | (Effect.Success a, out, s1) => (Normal a, out, s1)
    | (Effect.Failure e, out, s1) => (Throw e, out, s1)
    end.

(** A computation whose functions capture no variable that is assigned, as
    are the computations of the script. *)
Definition stateless {S A E} (effect : Effect.Effect A E) : Effect S A E :=
  fun s => (effect tt, s).

(** Two executions of [effect] with [runSync], one after the other. *)
Definition run_twice {S A E T} (effect : Effect S A E)
  : Js S T (Completion E A * Completion E A) :=
  bind (attempt (runSync effect)) (fun first =>
  bind (attempt (runSync effect)) (fun second =>
  ret (first, second))).

(** [Effect.sync(() => calls++)] for a captured variable [calls]. *)
Definition count_calls : Effect nat nat Empty_set :=
  sync (fun calls => (calls, [], S calls)).


End Stateful.

(** ** The host language fragment: laws *)

Section JsLaws.

Context {T X Y : Type}.

Lemma bind_ret_l (x : X) (k : X -> Js T Y) : (y <- ret x ;; k y) = k x.
Proof. unfold bind, ret. destruct (k x) as [c out]. reflexivity. Qed.

Lemma bind_throw_l (t : T) (k : X -> Js T Y) : (y <- throw t ;; k y) = throw t.
Proof. reflexivity. Qed.

Lemma bind_ret_r (m : Js T X) : (x <- m ;; ret x) = m.
Proof.
  destruct m as [[x|t] out]; unfold bind, ret; [|reflexivity].
  by rewrite app_nil_r.
Qed.

Lemma attempt_eq {T'} (m : Js T X) :
  attempt m = (Normal (fst m), snd m) :> Js T' (Completion T X).
Proof.
  destruct m as [[x|t] out]; unfold attempt, try_catch, bind, ret; simpl;
    by rewrite app_nil_r.
Qed.

End JsLaws.

(** ** The Effect library: executions *)

Section EffectLaws.

Context {A E : Type}.

Lemma runSync_succeed (a : A) :
  Effect.runSync (Effect.succeed a) = ret a :> Js E A.
Proof. reflexivity. Qed.

Lemma runSync_fail (e : E) :
  Effect.runSync (Effect.fail e) = throw e :> Js E A.
Proof. reflexivity. Qed.

Lemma runSync_eq (effect : Effect.Effect A E) (exit : Effect.Exit A E)
    (out : list Line) :
  effect tt = (exit, out) ->
  Effect.runSync effect =
    (match exit with
     | Effect.Success a => Normal a
     | Effect.Failure e => Throw e
     end, out).
Proof. unfold Effect.runSync. intros ->. by destruct exit. Qed.

Lemma catchTag_same_tag `{Effect.Tagged E} (self : Effect.Effect A E)
    (k : string) (f : E -> Js Empty_set (Effect.Effect A E)) (e : E)
    (out : list Line) :
  self tt = (Effect.Failure e, out) ->
  Effect.tag e = k ->
  Effect.runSync (Effect.catchTag k f self) =
    (let (that, out1) := settled (f e) in
     let (c, out2) := Effect.runSync that in (c, out ++ out1 ++ out2)).
Proof.
  intros Hself Htag. unfold Effect.runSync, Effect.catchTag.
  rewrite Hself. apply String.eqb_eq in Htag. rewrite Htag.
  destruct (settled (f e)) as [that out1].
  by destruct (that tt) as [[a|e'] out2].
Qed.

End EffectLaws.

(** ** Division *)

Lemma new_ErrorDivideByZero_lookup :
  Plain.new_ErrorDivideByZero !! "name" = Some (VStr "ErrorDivideByZero")
  /\ Plain.new_ErrorDivideByZero !! "message"
     = Some (VStr "Cannot divide by zero")
  /\ Plain.new_ErrorDivideByZero !! "dividend" = None
  /\ Plain.new_ErrorDivideByZero !! "divisor" = None.
Proof. repeat split; vm_compute; reflexivity. Qed.

Lemma new_Error_lookup (message : string) :
  new_Error message !! "name" = Some (VStr "Error")
  /\ new_Error message !! "message" = Some (VStr message).
Proof.
  unfold new_Error. split.
  - apply lookup_insert_eq.
  - rewrite lookup_insert_ne by done. apply lookup_insert_eq.
Qed.

(** C1, as the claim states it for the plain script, fails: for the
    operands 6 and 0, [divideWithCustomError] does not throw an error that
    has the operands as its [dividend] and [divisor]. *)
Lemma plain_custom_error_without_operands :
  ~ (exists (e : object) (out : list Line),
        Plain.divideWithCustomError 6 0 = (Throw e, out)
        /\ e !! "dividend" = Some (VNum 6)
        /\ e !! "divisor" = Some (VNum 0)).
Proof.
  intros (e & out & Hthrow & Hdividend & _).
  change (Plain.divideWithCustomError 6 0)
    with (throw (X := number) Plain.new_ErrorDivideByZero) in Hthrow.
  injection Hthrow as <- _.
  destruct new_ErrorDivideByZero_lookup as (_ & _ & Hnone & _).
  congruence.
Qed.

(** C1, amended: when the divisor [b] is zero ([b === 0]), no division
    function returns a value. In the script with effects, running
    [divide a b] fails with the string "Cannot divide by zero", and running
    [divideWithCustomError a b] fails with an error whose [_tag] is
    "ErrorDivideByZero", whose [dividend] is [a] and whose [divisor] is [b];
    the promise of [runPromise] is rejected with the same values. In the
    plain script, [divide a b] throws an [Error] whose message is "Cannot
    divide by zero", and [divideWithCustomError a b] throws an error whose
    [name] is "ErrorDivideByZero" and whose message is "Cannot divide by
    zero", which has no [dividend] and no [divisor]. Nothing is printed. *)
Theorem divide_by_zero_fails (a b : number) :
  PrimFloat.eqb b 0 = true ->
  (effect <- ExampleEffect.divide a b ;; Effect.runSync effect)
    = (Throw "Cannot divide by zero", [])
  /\ (exists error : ExampleEffect.ErrorDivideByZero,
        (effect <- ExampleEffect.divideWithCustomError a b ;;
         Effect.runSync effect) = (Throw error, [])
        /\ ExampleEffect._tag error = "ErrorDivideByZero"
        /\ ExampleEffect.dividend error = a
        /\ ExampleEffect.divisor error = b)
  /\ (effect <- ExampleEffect.divide a b ;; Effect.runPromise effect)
     = ret (T := Empty_set) (Effect.Rejected "Cannot divide by zero")
  /\ (effect <- ExampleEffect.divideWithCustomError a b ;;
      Effect.runPromise effect)
     = ret (T := Empty_set)
         (Effect.Rejected (ExampleEffect.new_ErrorDivideByZero a b))
  /\ (exists error : object,
        Plain.divide a b = (Throw error, [])
        /\ error !! "message" = Some (VStr "Cannot divide by zero"))
  /\ (exists error : object,
        Plain.divideWithCustomError a b = (Throw error, [])
        /\ error !! "name" = Some (VStr "ErrorDivideByZero")
        /\ error !! "message" = Some (VStr "Cannot divide by zero")
        /\ error !! "dividend" = None
        /\ error !! "divisor" = None).
Proof.
  intros Hzero.
  unfold ExampleEffect.divide, ExampleEffect.divideWithCustomError,
    Plain.divide, Plain.divideWithCustomError.
  rewrite Hzero. repeat split.
  - exists (ExampleEffect.new_ErrorDivideByZero a b). repeat split.
  - exists (new_Error "Cannot divide by zero").
    split; [reflexivity | apply new_Error_lookup].
  - exists Plain.new_ErrorDivideByZero.
    split; [reflexivity | apply new_ErrorDivideByZero_lookup].
Qed.

Lemma divide_by_zero_fails_witness :
  PrimFloat.eqb (-0)%float 0 = true
  /\ (effect <- ExampleEffect.divideWithCustomError 6 (-0) ;;
      Effect.runPromise effect)
     = ret (T := Empty_set)
         (Effect.Rejected (ExampleEffect.new_ErrorDivideByZero 6 (-0))).
Proof.
  split; [reflexivity |].
  apply (divide_by_zero_fails 6 (-0)%float). reflexivity.
Defined.

(** C2: when the divisor [b] is not zero ([b === 0] is false), running
    [divide a b] or [divideWithCustomError a b] synchronously returns
    [a / b], the quotient of the host's numbers, and prints nothing; the
    plain functions return the same value. *)
Theorem divide_nonzero_succeeds (a b : number) :
  PrimFloat.eqb b 0 = false ->
  (effect <- ExampleEffect.divide a b ;; Effect.runSync effect)
    = ret (a / b)%float
  /\ (effect <- ExampleEffect.divideWithCustomError a b ;;
      Effect.runSync effect) = ret (a / b)%float
  /\ Plain.divide a b = ret (a / b)%float
  /\ Plain.divideWithCustomError a b = ret (a / b)%float.
Proof.
  intros Hzero.
  unfold ExampleEffect.divide, ExampleEffect.divideWithCustomError,
    Plain.divide, Plain.divideWithCustomError.
  rewrite Hzero. repeat split.
Qed.

Lemma divide_nonzero_succeeds_witness :
  PrimFloat.eqb 4 0 = false
  /\ (effect <- ExampleEffect.divideWithCustomError 12 4 ;;
      Effect.runSync effect) = ret 3%float.
Proof.
  split; [reflexivity |].
  apply (divide_nonzero_succeeds 12 4). reflexivity.
Defined.

(** C5: [divide] and [divideWithCustomError] behave alike. For all
    operands, running one fails exactly when running the other fails, which
    is when the divisor is zero, and otherwise both return the same value
    [a / b]; neither prints. Only the failure values differ. *)
Theorem divide_styles_agree (a b : number) :
  same_behaviour
    (effect <- ExampleEffect.divide a b ;; Effect.runSync effect)
    (effect <- ExampleEffect.divideWithCustomError a b ;;
     Effect.runSync effect)
  /\ ((exists (error : string) (out : list Line),
          (effect <- ExampleEffect.divide a b ;; Effect.runSync effect)
          = (Throw error, out))
      <-> PrimFloat.eqb b 0 = true)
  /\ ((exists (error : ExampleEffect.ErrorDivideByZero) (out : list Line),
          (effect <- ExampleEffect.divideWithCustomError a b ;;
           Effect.runSync effect) = (Throw error, out))
      <-> PrimFloat.eqb b 0 = true)
  /\ (PrimFloat.eqb b 0 = false <->
      (effect <- ExampleEffect.divide a b ;; Effect.runSync effect)
        = ret (a / b)%float
      /\ (effect <- ExampleEffect.divideWithCustomError a b ;;
          Effect.runSync effect) = ret (a / b)%float).
Proof.
  unfold ExampleEffect.divide, ExampleEffect.divideWithCustomError.
  destruct (PrimFloat.eqb b 0) eqn:Hzero.
  - repeat split; try done.
    + intros _. by exists "Cannot divide by zero", [].
    + intros _. by exists (ExampleEffect.new_ErrorDivideByZero a b), [].
    + intros [Hdivide _]. discriminate Hdivide.
  - repeat split; try done.
    + intros (error & out & Hthrow). discriminate Hthrow.
    + intros (error & out & Hthrow). discriminate Hthrow.
Qed.

(** ** The constants of the script *)

(** C9: in the script, [add(1, 2)] run synchronously gives 3,
    [subtract(5, 2)] gives 3, [multiply(3, 4)] gives 12 and [divide(6, 3)]
    gives 2; [safeDivide], which is [divideWithCustomError(6, 0)] with a
    [catchAll] handler that returns [Effect.succeed(0)], gives 0 after the
    two lines of its handler; [handleSpecificError], which is
    [divideWithCustomError(10, 0)] with a [catchTag] handler for
    "ErrorDivideByZero" that returns [Effect.succeed(-1)], gives -1 after
    the line of its handler. *)
Theorem script_results :
  ExampleEffect.sum = ret 3%float
  /\ ExampleEffect.difference = ret 3%float
  /\ ExampleEffect.product = ret 12%float
  /\ ExampleEffect.quotient = ret 2%float
  /\ ExampleEffect.safeResult
     = (Normal 0%float,
        [ [LStr "Caught error: ErrorDivideByZero - Cannot divide by zero"];
          [LTemplate [inl "Attempted: "; inr 6%float;
                      inl " / "; inr 0%float]] ])
  /\ ExampleEffect.specificResult
     = (Normal (-1)%float,
        [ [LStr "Specific handler for: ErrorDivideByZero"] ]).
Proof. repeat split. Qed.

(** The plain script computes the same four values, and its [try] statement
    prints the error that [divideWithCustomError(6, 0)] throws. *)
Example plain_script_results :
  Plain.sum = ret 3%float
  /\ Plain.difference = ret 3%float
  /\ Plain.product = ret 12%float
  /\ Plain.quotient = ret 2%float
  /\ Plain.tryQuotientWithCustomError
     = (Normal tt, [ [LObj Plain.new_ErrorDivideByZero] ]).
Proof. repeat split. Qed.

(** The other constants of the script with effects. *)
Example script_other_results :
  ExampleEffect.validResult = ret 3%float
  /\ ExampleEffect.asyncQuotient (T := Empty_set)
     = ret (Effect.Fulfilled 5%float).
Proof. repeat split. Qed.

(** ** The class [ErrorDivideByZero] *)

(** C10: for all constructor arguments, the instance of [ErrorDivideByZero]
    has [_tag] "ErrorDivideByZero" and [message] "Cannot divide by zero",
    and its [dividend] and [divisor] are the two arguments, unchanged; the
    discriminator that [catchTag] reads is that [_tag]. *)
Theorem ErrorDivideByZero_fields (a b : number) :
  ExampleEffect._tag (ExampleEffect.new_ErrorDivideByZero a b)
    = "ErrorDivideByZero"
  /\ ExampleEffect.message (ExampleEffect.new_ErrorDivideByZero a b)
     = "Cannot divide by zero"
  /\ ExampleEffect.dividend (ExampleEffect.new_ErrorDivideByZero a b) = a
  /\ ExampleEffect.divisor (ExampleEffect.new_ErrorDivideByZero a b) = b
  /\ Effect.tag (ExampleEffect.new_ErrorDivideByZero a b)
     = "ErrorDivideByZero".
Proof. repeat split. Qed.

(** ** Handlers *)

(** C3: running [catchAll f self] is running [self] inside a [try]
    statement whose [catch] clause calls the handler [f] once, with the
    failure, and runs the computation that [f] returns. So when [self]
    fails with [e], the lines of [f e] are printed once, after the lines of
    [self] and before the lines of the replacement, and the run ends as the
    run of the replacement ends; when [self] succeeds with [a], the run
    returns [a] and prints the lines of [self] only. The handler is applied
    under the thunk of [catchAll f self], that is, when it is executed. *)
Theorem catchAll_runs_handler_once {A E E2 : Type}
    (self : Effect.Effect A E) (f : E -> Js Empty_set (Effect.Effect A E2)) :
  Effect.runSync (Effect.catchAll f self)
    = try_catch (Effect.runSync self)
        (fun e => that <- lift (f e) ;; Effect.runSync that)
  /\ match self tt with
     | (Effect.Success a, out) =>
         Effect.runSync (Effect.catchAll f self) = (Normal a, out)
     | (Effect.Failure e, out) =>
         Effect.runSync (Effect.catchAll f self)
         = (fst (Effect.runSync (fst (settled (f e)))),
            out ++ snd (settled (f e))
                ++ snd (Effect.runSync (fst (settled (f e)))))
     end.
Proof.
  unfold Effect.runSync, Effect.catchAll, try_catch, bind, lift.
  destruct (self tt) as [[a|e] out]; [done |].
  destruct (settled (f e)) as [that out1]; simpl.
  by destruct (that tt) as [[a|e2] out2].
Qed.

(** C6: when [self] fails with a failure [e] whose discriminator is not
    [k], running [catchTag k f self] fails with the same [e] and prints the
    lines of [self] only, so the handler [f] is not called. *)
Theorem catchTag_other_tag {A E : Type} `{Effect.Tagged E}
    (self : Effect.Effect A E) (k : string)
    (f : E -> Js Empty_set (Effect.Effect A E)) (e : E) (out : list Line) :
  self tt = (Effect.Failure e, out) ->
  Effect.tag e <> k ->
  Effect.catchTag k f self tt = (Effect.Failure e, out)
  /\ Effect.runSync (Effect.catchTag k f self) = (Throw e, out).
Proof.
  intros Hself Htag. unfold Effect.runSync, Effect.catchTag.
  rewrite Hself. apply String.eqb_neq in Htag. by rewrite Htag.
Qed.

Lemma catchTag_other_tag_witness :
  Effect.runSync
    (Effect.catchTag (A := number) "ErrorNotFound"
       (fun error =>
          console_log [LStr ("Specific handler for: "
                             +:+ ExampleEffect._tag error)] ;;
          ret (Effect.succeed (-1)%float))
       (Effect.fail (ExampleEffect.new_ErrorDivideByZero 10 0)))
  = (Throw (ExampleEffect.new_ErrorDivideByZero 10 0), []).
Proof.
  apply (catchTag_other_tag
           (Effect.fail (ExampleEffect.new_ErrorDivideByZero 10 0))
           "ErrorNotFound" _ (ExampleEffect.new_ErrorDivideByZero 10 0) []).
  - reflexivity.
  - discriminate.
Defined.

(** ** Executions *)

(** C4: [runSync] and [runPromise] pass the outcome of the computation on.
    When the computation succeeds with [a], [runSync] returns [a] and the
    promise of [runPromise] is fulfilled with [a]; when it fails with [e],
    [runSync] throws [e] and the promise is rejected with [e]. Both print
    the lines of the computation and no other, [runSync] throws only when
    the computation fails, and [runPromise] never throws. *)
Theorem run_passes_outcome_on {A E T : Type} (effect : Effect.Effect A E) :
  match effect tt with
  | (Effect.Success a, out) =>
      Effect.runSync effect = (Normal a, out)
      /\ Effect.runPromise (T := T) effect
         = (Normal (Effect.Fulfilled a), out)
  | (Effect.Failure e, out) =>
      Effect.runSync effect = (Throw e, out)
      /\ Effect.runPromise (T := T) effect
         = (Normal (Effect.Rejected e), out)
  end
  /\ ((exists t, fst (Effect.runSync effect) = Throw t)
      <-> (exists e, fst (effect tt) = Effect.Failure e))
  /\ (exists promise,
        fst (Effect.runPromise (T := T) effect) = Normal promise).
Proof.
  unfold Effect.runSync, Effect.runPromise.
  destruct (effect tt) as [[a|e] out]; simpl; repeat split; eauto.
  - intros [t Hthrow]. discriminate Hthrow.
  - intros [e Hfail]. discriminate Hfail.
Qed.

(** Without captured variables, two executions of one computation with
    [runSync], one after the other, end the same way and print the same
    lines. *)
Lemma runSync_twice {A E T : Type} (effect : Effect.Effect A E) :
  (first <- attempt (Effect.runSync effect) ;;
   second <- attempt (Effect.runSync effect) ;;
   ret (T := T) (first, second))
  = (Normal (fst (Effect.runSync effect), fst (Effect.runSync effect)),
     snd (Effect.runSync effect) ++ snd (Effect.runSync effect)).
Proof.
  rewrite !attempt_eq.
  destruct (Effect.runSync effect) as [c out]. simpl.
  by rewrite !app_nil_r.
Qed.

(** [divide(6, 0)] and [safeDivide], run twice. *)
Example runSync_twice_script :
  (effect <- ExampleEffect.divide 6 0 ;;
   first <- attempt (Effect.runSync effect) ;;
   second <- attempt (Effect.runSync effect) ;;
   ret (T := Empty_set) (first, second))
  = ret (Throw "Cannot divide by zero", Throw "Cannot divide by zero")
  /\ fst (effect <- ExampleEffect.safeDivide ;;
          first <- attempt (Effect.runSync effect) ;;
          second <- attempt (Effect.runSync effect) ;;
          ret (T := Empty_set) (first, second))
     = Normal (Normal 0%float, Normal 0%float).
Proof. split; reflexivity. Qed.

Lemma stateful_attempt_eq {S T T' X : Type} (m : Stateful.Js S T X) (s : S) :
  Stateful.attempt (T' := T') m s
  = (Normal (fst (fst (m s))), snd (fst (m s)), snd (m s)).
Proof.
  unfold Stateful.attempt, Stateful.try_catch, Stateful.bind, Stateful.ret.
  destruct (m s) as [[[x|t] out] s1]; simpl; by rewrite app_nil_r.
Qed.



(** The computations of the script capture no variable that is assigned, so
    two executions agree from every state. *)
Lemma runSync_twice_stateless {S A E T : Type} (effect : Effect.Effect A E)
    (s : S) :
  Stateful.run_twice (T := T) (Stateful.stateless effect) s
  = (Normal (fst (Effect.runSync effect), fst (Effect.runSync effect)),
     snd (Effect.runSync effect) ++ snd (Effect.runSync effect), s).
Proof.
  unfold Stateful.run_twice, Stateful.bind.
  rewrite !stateful_attempt_eq.
  unfold Stateful.runSync, Stateful.stateless, Effect.runSync.
  destruct (effect tt) as [[a|e] out]; simpl; by rewrite !app_nil_r.
Qed.

(** A computation that assigns a variable it captures does not have the
    same captured inputs at its second execution: [Effect.sync(() =>
    calls++)] succeeds with 0 and then with 1. *)
Example count_calls_twice :
  Stateful.run_twice (T := Empty_set) Stateful.count_calls 0
  = (Normal (Normal 0, Normal 1), [], 2).
Proof. reflexivity. Qed.

(** ** Construction *)


(** In contrast, the plain [divide] throws when it is called. *)
Example plain_divide_throws_when_called :
  ~ silent (Plain.divide 6 0).
Proof. intros [x Hret]. discriminate Hret. Qed.


(** The record of operations tells a computation built from a value from one
    built from a thunk: [Effect.sync(() => 1 + 2)] is built without an
    operation and evaluates the sum at each execution, [add(1, 2)] the other
    way round; without the record the two are the same computation. *)
Example sync_evaluates_at_execution :
  snd (Steps.runSync (E := Empty_set) (Steps.sync (fun _ => Steps.plus 1 2)))
    = [Steps.Plus 1 2]
  /\ snd (Steps.runSync (fst (Steps.add 1 2))) = []
  /\ snd (Steps.add 1 2) = [Steps.Plus 1 2]
  /\ Steps.erase (E := Empty_set) (Steps.sync (fun _ => Steps.plus 1 2))
     = Steps.erase (fst (Steps.add 1 2)).
Proof. repeat split. Qed.


(** ** Arithmetic of the host's numbers *)

Lemma SF64add_comm (x y : spec_float) : SF64add x y = SF64add y x.
Proof.
  unfold SF64add, SFadd.
  destruct x as [sx|sx| |sx mx ex], y as [sy|sy| |sy my ey]; try reflexivity.
  - by destruct sx, sy.
  - by destruct sx, sy.
  - by rewrite Z.min_comm, Z.add_comm.
Qed.

Lemma SF64mul_comm (x y : spec_float) : SF64mul x y = SF64mul y x.
Proof.
  unfold SF64mul, SFmul.
  destruct x as [sx|sx| |sx mx ex], y as [sy|sy| |sy my ey]; try reflexivity;
    rewrite (xorb_comm sx sy); try reflexivity.
  by rewrite Pos.mul_comm, Z.add_comm.
Qed.

Lemma number_add_comm (a b : number) : (a + b = b + a)%float.
Proof. apply Prim2SF_inj. rewrite !add_spec. apply SF64add_comm. Qed.

Lemma number_mul_comm (a b : number) : (a * b = b * a)%float.
Proof. apply Prim2SF_inj. rewrite !mul_spec. apply SF64mul_comm. Qed.

Lemma number_sub_zero (a : number) : (a - 0 = a)%float.
Proof.
  apply Prim2SF_inj. rewrite sub_spec.
  change (Prim2SF 0) with (S754_zero false).
  by destruct (Prim2SF a) as [[]|[]| |].
Qed.

Lemma number_div_nan_r (a : number) : (a / nan = nan)%float.
Proof.
  apply Prim2SF_inj. rewrite div_spec.
  change (Prim2SF nan) with S754_nan.
  by destruct (Prim2SF a).
Qed.

Lemma number_div_nan_l (b : number) : (nan / b = nan)%float.
Proof.
  apply Prim2SF_inj. rewrite div_spec.
  change (Prim2SF nan) with S754_nan. reflexivity.
Qed.

(** [b === 0] holds for the two zeros and for no other number. *)
Lemma strict_equal_zero (b : number) :
  PrimFloat.eqb b 0 = true <-> b = 0%float \/ b = (-0)%float.
Proof.
  rewrite FloatAxioms.eqb_spec. change (Prim2SF 0) with (S754_zero false).
  split.
  - intros Heq. rewrite <- (SF2Prim_Prim2SF b).
    destruct (Prim2SF b) as [[]|[]| |[] m e]; try discriminate Heq.
    + by right.
    + by left.
  - by intros [-> | ->].
Qed.

(** X1: [add] does not depend on the order of its operands, in both
    scripts: [add(a, b)] and [add(b, a)] give the same number, [NaN],
    infinities and signed zeros included. *)
Theorem add_commutes (T : Type) (a b : number) :
  (effect <- ExampleEffect.add a b ;; Effect.runSync effect)
  = (effect <- ExampleEffect.add b a ;; Effect.runSync effect)
  /\ Plain.add (T := T) a b = Plain.add b a.
Proof.
  unfold ExampleEffect.add, Plain.add.
  by rewrite (number_add_comm a b).
Qed.

(** X2: [multiply] does not depend on the order of its operands, in both
    scripts. *)
Theorem multiply_commutes (T : Type) (a b : number) :
  (effect <- ExampleEffect.multiply a b ;; Effect.runSync effect)
  = (effect <- ExampleEffect.multiply b a ;; Effect.runSync effect)
  /\ Plain.multiply (T := T) a b = Plain.multiply b a.
Proof.
  unfold ExampleEffect.multiply, Plain.multiply.
  by rewrite (number_mul_comm a b).
Qed.

(** X3: [subtract(a, 0)] gives [a] back for every number [a], [-0] and
    [NaN] included, in both scripts. *)
Theorem subtract_zero (T : Type) (a : number) :
  (effect <- ExampleEffect.subtract a 0 ;; Effect.runSync effect) = ret a
  /\ Plain.subtract (T := T) a 0 = ret a.
Proof.
  unfold ExampleEffect.subtract, Plain.subtract.
  by rewrite number_sub_zero.
Qed.

(** ** The guard of the division *)

(** X4: the divisors that [divide] and [divideWithCustomError] refuse, in
    both scripts, are 0 and -0 and no other: an execution fails exactly when
    the divisor is one of the two zeros, so [NaN] and the infinities are
    divided by. *)
Theorem division_fails_iff_zero (a b : number) :
  ((exists error out,
       (effect <- ExampleEffect.divide a b ;; Effect.runSync effect)
       = (Throw error, out))
   <-> b = 0%float \/ b = (-0)%float)
  /\ ((exists error out,
          (effect <- ExampleEffect.divideWithCustomError a b ;;
           Effect.runSync effect) = (Throw error, out))
      <-> b = 0%float \/ b = (-0)%float)
  /\ ((exists error out, Plain.divide a b = (Throw error, out))
      <-> b = 0%float \/ b = (-0)%float)
  /\ ((exists error out, Plain.divideWithCustomError a b = (Throw error, out))
      <-> b = 0%float \/ b = (-0)%float).
Proof.
  rewrite <- strict_equal_zero.
  unfold ExampleEffect.divide, ExampleEffect.divideWithCustomError,
    Plain.divide, Plain.divideWithCustomError.
  destruct (PrimFloat.eqb b 0); repeat split; try done;
    try (intros _; eexists _, _; reflexivity);
    intros (error & out & Hthrow); discriminate Hthrow.
Qed.

(** X5: a [NaN] operand passes through the division. For every dividend,
    [divide(a, NaN)] succeeds with [NaN], and [divide(NaN, b)] succeeds with
    [NaN] unless [b] is a zero, in which case it fails as for any other
    dividend; the plain [divide] does the same. *)
Theorem division_with_nan (a b : number) :
  (effect <- ExampleEffect.divide a nan ;; Effect.runSync effect) = ret nan
  /\ (effect <- ExampleEffect.divideWithCustomError a nan ;;
      Effect.runSync effect) = ret nan
  /\ Plain.divide a nan = ret nan
  /\ (effect <- ExampleEffect.divide nan b ;; Effect.runSync effect)
     = (if PrimFloat.eqb b 0 then throw "Cannot divide by zero" else ret nan)
  /\ Plain.divide nan b
     = (if PrimFloat.eqb b 0 then throw (new_Error "Cannot divide by zero")
        else ret nan).
Proof.
  unfold ExampleEffect.divide, ExampleEffect.divideWithCustomError,
    Plain.divide.
  change (PrimFloat.eqb nan 0) with false. cbv iota.
  rewrite number_div_nan_r.
  destruct (PrimFloat.eqb b 0); rewrite ?number_div_nan_l; repeat split.
Qed.

(** ** The two scripts *)

(** X6: each function of the script with effects, run synchronously, does
    what the plain function of the same name does, for all operands. [add],
    [subtract] and [multiply] give the same number. [divide] gives the same
    number, or fails with the string that is the message of the [Error] the
    plain [divide] throws. [divideWithCustomError] gives the same number, or
    fails with an error whose [_tag] and [message] are the [name] and the
    message of the error the plain one throws. *)
Theorem effect_script_agrees_with_plain (a b : number) :
  (effect <- ExampleEffect.add a b ;; Effect.runSync effect) = Plain.add a b
  /\ (effect <- ExampleEffect.subtract a b ;; Effect.runSync effect)
     = Plain.subtract a b
  /\ (effect <- ExampleEffect.multiply a b ;; Effect.runSync effect)
     = Plain.multiply a b
  /\ ported (fun error e => error !! "message" = Some (VStr e))
       (Plain.divide a b)
       (effect <- ExampleEffect.divide a b ;; Effect.runSync effect)
  /\ ported
       (fun error e =>
          error !! "name" = Some (VStr (ExampleEffect._tag e))
          /\ error !! "message" = Some (VStr (ExampleEffect.message e)))
       (Plain.divideWithCustomError a b)
       (effect <- ExampleEffect.divideWithCustomError a b ;;
        Effect.runSync effect).
Proof.
  unfold ExampleEffect.divide, ExampleEffect.divideWithCustomError,
    Plain.divide, Plain.divideWithCustomError.
  destruct (PrimFloat.eqb b 0); repeat split; simpl;
    solve [ apply new_Error_lookup | apply new_ErrorDivideByZero_lookup ].
Qed.

(** X7: in the plain script, [divide] and [divideWithCustomError] return
    the same number or both throw; the two errors thrown have the same
    message and differ in [name]. *)
Theorem plain_division_styles_agree (a b : number) :
  match Plain.divide a b, Plain.divideWithCustomError a b with
  | (Normal x1, out1), (Normal x2, out2) => x1 = x2 /\ out1 = out2
  | (Throw error1, out1), (Throw error2, out2) =>
      error1 !! "message" = error2 !! "message"
      /\ error1 !! "name" <> error2 !! "name"
      /\ out1 = out2
  | _, _ => False
  end.
Proof.
  unfold Plain.divide, Plain.divideWithCustomError.
  destruct (PrimFloat.eqb b 0); simpl; [| done].
  destruct (new_Error_lookup "Cannot divide by zero") as [Hname Hmessage].
  destruct new_ErrorDivideByZero_lookup as (Hname' & Hmessage' & _).
  rewrite Hname, Hmessage, Hname', Hmessage'. by repeat split.
Qed.

(** ** The handlers of the script *)

Lemma safeDivide_handler_used (T : Type) :
  ExampleEffect.safeDivide (T := T)
  = (self <- ExampleEffect.divideWithCustomError 6 0 ;;
     ret (pipe self (Effect.catchAll safeDivide_handler))).
Proof. reflexivity. Qed.

Lemma handleSpecificError_handler_used (T : Type) :
  ExampleEffect.handleSpecificError (T := T)
  = (self <- ExampleEffect.divideWithCustomError 10 0 ;;
     ret (pipe self
            (Effect.catchTag "ErrorDivideByZero"
               handleSpecificError_handler))).
Proof. reflexivity. Qed.

(** X8: the [catchAll] handler of [safeDivide] recovers every division.
    For all operands, [divideWithCustomError(a, b)] piped through it runs
    without a failure: it returns [a / b] and prints nothing when [b] is not
    a zero, and returns 0 after the two lines of the handler, which report
    the operands [a] and [b] of that call, when [b] is a zero. *)
Theorem safeDivide_handler_recovers (a b : number) :
  (self <- ExampleEffect.divideWithCustomError a b ;;
   Effect.runSync (pipe self (Effect.catchAll safeDivide_handler)))
  = (if PrimFloat.eqb b 0 then
       (Normal 0%float,
        [ [LStr "Caught error: ErrorDivideByZero - Cannot divide by zero"];
          [LTemplate [inl "Attempted: "; inr a; inl " / "; inr b]] ])
     else ret (a / b)%float).
Proof.
  unfold ExampleEffect.divideWithCustomError.
  by destruct (PrimFloat.eqb b 0).
Qed.

(** X9: the [catchTag] handler of [handleSpecificError] recovers every
    division. For all operands, [divideWithCustomError(a, b)] piped through
    [catchTag("ErrorDivideByZero", handler)] never throws: it returns
    [a / b] and prints nothing when [b] is not a zero, and returns -1 after
    the line of the handler when [b] is a zero. *)
Theorem handleSpecificError_handler_recovers (a b : number) :
  (self <- ExampleEffect.divideWithCustomError a b ;;
   Effect.runSync
     (pipe self
        (Effect.catchTag "ErrorDivideByZero" handleSpecificError_handler)))
  = (if PrimFloat.eqb b 0 then
       (Normal (-1)%float,
        [ [LStr "Specific handler for: ErrorDivideByZero"] ])
     else ret (a / b)%float).
Proof.
  unfold ExampleEffect.divideWithCustomError.
  by destruct (PrimFloat.eqb b 0).
Qed.

(** X10: on [divideWithCustomError], a [catchTag] handler for
    "ErrorDivideByZero" catches what a [catchAll] handler catches: for all
    operands and every handler [f], the two run alike, since the only
    failure of [divideWithCustomError] has that [_tag]. *)
Theorem catchTag_ErrorDivideByZero_catches_all (a b : number)
    (f : ExampleEffect.ErrorDivideByZero ->
         Js Empty_set (Effect.Effect number ExampleEffect.ErrorDivideByZero)) :
  (self <- ExampleEffect.divideWithCustomError a b ;;
   Effect.runSync (pipe self (Effect.catchTag "ErrorDivideByZero" f)))
  = (self <- ExampleEffect.divideWithCustomError a b ;;
     Effect.runSync (pipe self (Effect.catchAll f))).
Proof.
  unfold ExampleEffect.divideWithCustomError.
  by destruct (PrimFloat.eqb b 0).
Qed.
